(** * generate_index.py: the static index generator, embedded and verified

    The program lists a directory, keeps the entries that carry a script
    suffix, cuts the kept list into three contiguous columns, renders one
    list item per file and writes the page to [index.html].

    Strings are [string] (file names as the byte sequences of their UTF-8
    encoding; every suffix the program tests is ASCII, so a test on bytes and
    a test on code points agree).  Lists are [list] with stdpp's [take],
    [drop] and lookup.  The file store is a [gmap] from paths to contents. *)

From Stdlib Require Import Ascii String.
From stdpp Require Import base list strings gmap.

(** ** Module-level constants (source lines 5-10) *)

Definition scripts_dir : string := "./scripts".
Definition curl_linux : string := "curl -sSL".
Definition curl_win : string := "Invoke-RestMethod".
Definition base_url : string := "https://edoardotosin.com/tools/".

(** The two characters that a literal cannot hold directly. *)
Definition nl : string := String "010"%char EmptyString.
Definition dq : string := String "034"%char EmptyString.

(** ** Python built-ins used by the program *)

(** [s.endswith(suffix)]: some tail of [s] is [suffix]. *)
Fixpoint endswith (s suffix : string) : bool :=
  String.eqb s suffix ||
  match s with
  | EmptyString => false
  | String _ s' => endswith s' suffix
  end.

(** [s.endswith((a, b, ...))]: true when [s] ends with one of the tuple. *)
Definition endswith_any (s : string) (suffixes : list string) : bool :=
  existsb (endswith s) suffixes.

(** [l[start:stop]] for indices that are not negative: Python clamps both
    to the length and yields nothing when [stop <= start]. *)
Definition slice {A} (l : list A) (start stop : nat) : list A :=
  take (stop - start) (drop start l).

(** [math.ceil(a / b)].  The source divides as floats; a list length is far
    below 2^52, where the quotient by 3 rounds to a double that lies strictly
    between the neighbouring integers unless it is one, so the result is the
    integer ceiling. *)
Definition ceil_div (a b : nat) : nat :=
  a / b + (if a mod b =? 0 then 0 else 1).

(** ** Partition into columns (source lines 14-22) *)

Definition num_columns : nat := 3.

Definition num_per_column (files : list string) : nat :=
  ceil_div (length files) num_columns.

Definition start_index (files : list string) (i : nat) : nat :=
  i * num_per_column files.

Definition end_index (files : list string) (i : nat) : nat :=
  min ((i + 1) * num_per_column files) (length files).

Definition column_files (files : list string) (i : nat) : list string :=
  slice files (start_index files i) (end_index files i).

(** The three slices in the order the loop builds them. *)
Definition column_slices (files : list string) : list (list string) :=
  map (column_files files) (seq 0 num_columns).

(** ** Rendering (source lines 24-53) *)

(** The four item templates of the conditional expression, in source order.
    Each f-string opens with a line break and closes after twelve blanks. *)

Definition li_bash (file : string) : string :=
  nl +:+
  "            <li>" +:+ nl +:+
  "                <button onclick=" +:+ dq +:+ "copyCommand('" +:+ file +:+ "')" +:+ dq +:+ " title=" +:+ dq +:+ "Click to copy command: " +:+ curl_linux +:+ " '" +:+ base_url +:+ file +:+ "' | bash" +:+ dq +:+ ">Copy</button>" +:+ nl +:+
  "                <a href=" +:+ dq +:+ file +:+ dq +:+ ">" +:+ file +:+ "</a>" +:+ nl +:+
  "            </li>" +:+ nl +:+
  "            ".

Definition li_python3 (file : string) : string :=
  nl +:+
  "            <li>" +:+ nl +:+
  "                <button onclick=" +:+ dq +:+ "copyCommand('" +:+ file +:+ "')" +:+ dq +:+ " title=" +:+ dq +:+ "Click to copy command: " +:+ curl_linux +:+ " '" +:+ base_url +:+ file +:+ "' | python3" +:+ dq +:+ ">Copy</button>" +:+ nl +:+
  "                <a href=" +:+ dq +:+ file +:+ dq +:+ ">" +:+ file +:+ "</a>" +:+ nl +:+
  "            </li>" +:+ nl +:+
  "            ".

Definition li_invoke_expression (file : string) : string :=
  nl +:+
  "            <li>" +:+ nl +:+
  "                <button onclick=" +:+ dq +:+ "copyCommand('" +:+ file +:+ "')" +:+ dq +:+ " title=" +:+ dq +:+ "Click to copy command: " +:+ curl_win +:+ " '" +:+ base_url +:+ file +:+ "' | Invoke-Expression" +:+ dq +:+ ">Copy</button>" +:+ nl +:+
  "                <a href=" +:+ dq +:+ file +:+ dq +:+ ">" +:+ file +:+ "</a>" +:+ nl +:+
  "            </li>" +:+ nl +:+
  "            ".

Definition li_unsupported (file : string) : string :=
  nl +:+
  "            <li>" +:+ nl +:+
  "                <button onclick=" +:+ dq +:+ "alert('Unsupported file type!')" +:+ dq +:+ " title=" +:+ dq +:+ "Unsupported file type" +:+ dq +:+ ">Copy</button>" +:+ nl +:+
  "                <a href=" +:+ dq +:+ file +:+ dq +:+ ">" +:+ file +:+ "</a>" +:+ nl +:+
  "            </li>" +:+ nl +:+
  "            ".

(** The chain [A if c1 else B if c2 else C if c3 else D] groups to the right. *)
Definition render_item (file : string) : string :=
  if endswith_any file [".sh"; ".bash"] then li_bash file
  else if endswith_any file [".py"; ".pyw"] then li_python3 file
  else if endswith file ".ps1" then li_invoke_expression file
  else li_unsupported file.

(** [column_items]: the items of one column joined by line breaks. *)
Definition column_items (column : list string) : string :=
  String.concat nl (map render_item column).

(** One entry of [columns]. *)
Definition render_column (column : list string) : string :=
  "<ul>" +:+ column_items column +:+ "</ul>".

Definition column_div (column : string) : string :=
  "<div style=" +:+ dq +:+ "float:left; width:33%;" +:+ dq +:+ ">" +:+ column +:+ "</div>".

Definition generate_list_items (files : list string) : string :=
  let columns := map render_column (column_slices files) in
  String.concat nl (map column_div columns).

(** ** The page template (source lines 59-174)

    [page_head] is the template up to the [list_items] field and [page_tail]
    the rest; doubled braces of the f-string stand for single ones. *)

Definition page_head : string :=
  "<!DOCTYPE html>" +:+ nl +:+
  "<html lang=" +:+ dq +:+ "en" +:+ dq +:+ ">" +:+ nl +:+
  "<head>" +:+ nl +:+
  "    <meta http-equiv=" +:+ dq +:+ "Content-Type" +:+ dq +:+ " content=" +:+ dq +:+ "text/html; charset=UTF-8" +:+ dq +:+ ">" +:+ nl +:+
  "    <meta name=" +:+ dq +:+ "viewport" +:+ dq +:+ " content=" +:+ dq +:+ "width=device-width, initial-scale=1.0" +:+ dq +:+ ">" +:+ nl +:+
  "    <meta content=" +:+ dq +:+ "Automation Tools" +:+ dq +:+ " property=" +:+ dq +:+ "og:site_name" +:+ dq +:+ ">" +:+ nl +:+
  "    <meta content=" +:+ dq +:+ "Computer Science Odyssey: Unraveling the Tech Maze" +:+ dq +:+ " property=" +:+ dq +:+ "og:tagline" +:+ dq +:+ " name=" +:+ dq +:+ "tagline" +:+ dq +:+ ">" +:+ nl +:+
  "    <meta content=" +:+ dq +:+ "Welcome to my personal tech hub! This website is a reflection of my journey in the fascinating world of technology. The blog section is a curated collection of posts demonstrating my ability to cre..." +:+ dq +:+ " property=" +:+ dq +:+ "og:description" +:+ dq +:+ " name=" +:+ dq +:+ "description" +:+ dq +:+ ">" +:+ nl +:+
  "    <meta content=" +:+ dq +:+ "Edoardo Tosin" +:+ dq +:+ " property=" +:+ dq +:+ "article:author" +:+ dq +:+ ">" +:+ nl +:+
  "    <meta property=" +:+ dq +:+ "og:image" +:+ dq +:+ " content=" +:+ dq +:+ "https://edoardotosin.com/assets/img/OGImg.jpg" +:+ dq +:+ ">" +:+ nl +:+
  "    <meta content=" +:+ dq +:+ "Automation Tools" +:+ dq +:+ " property=" +:+ dq +:+ "og:title" +:+ dq +:+ ">" +:+ nl +:+
  "    <meta content=" +:+ dq +:+ "article" +:+ dq +:+ " property=" +:+ dq +:+ "og:type" +:+ dq +:+ ">" +:+ nl +:+
  "    <meta content=" +:+ dq +:+ "https://edoardotosin.com/tools" +:+ dq +:+ " property=" +:+ dq +:+ "og:url" +:+ dq +:+ ">" +:+ nl +:+
  "    <link rel=" +:+ dq +:+ "canonical" +:+ dq +:+ " href=" +:+ dq +:+ "https://edoardotosin.com/tools" +:+ dq +:+ ">" +:+ nl +:+
  "    <title>Automation Tools - Edoardo Tosin</title>" +:+ nl +:+
  "    <!-- Style -->" +:+ nl +:+
  "    <link href=" +:+ dq +:+ "../assets/css/style.css" +:+ dq +:+ " rel=" +:+ dq +:+ "stylesheet" +:+ dq +:+ " media=" +:+ dq +:+ "all" +:+ dq +:+ " class=" +:+ dq +:+ "default" +:+ dq +:+ " />" +:+ nl +:+
  "    <link href=" +:+ dq +:+ "../assets/css/main.css" +:+ dq +:+ " rel=" +:+ dq +:+ "stylesheet" +:+ dq +:+ " media=" +:+ dq +:+ "all" +:+ dq +:+ " class=" +:+ dq +:+ "default" +:+ dq +:+ " />" +:+ nl +:+
  "    <link href=" +:+ dq +:+ "../assets/css/Util.css" +:+ dq +:+ " rel=" +:+ dq +:+ "stylesheet" +:+ dq +:+ " media=" +:+ dq +:+ "all" +:+ dq +:+ " class=" +:+ dq +:+ "default" +:+ dq +:+ " />" +:+ nl +:+
  "    <style>" +:+ nl +:+
  "        body {" +:+ nl +:+
  "            font-family: Arial, sans-serif;" +:+ nl +:+
  "        }" +:+ nl +:+
  "        h1 {" +:+ nl +:+
  "            text-align: center;" +:+ nl +:+
  "        }" +:+ nl +:+
  "        ul {" +:+ nl +:+
  "            list-style-type: none;" +:+ nl +:+
  "            padding: 0;" +:+ nl +:+
  "        }" +:+ nl +:+
  "        li {" +:+ nl +:+
  "            margin: 5px 0;" +:+ nl +:+
  "            display: flex;" +:+ nl +:+
  "            align-items: center;" +:+ nl +:+
  "        }" +:+ nl +:+
  "        a {" +:+ nl +:+
  "            margin-left: 10px;" +:+ nl +:+
  "            text-decoration: none;" +:+ nl +:+
  "            color: #007BFF;" +:+ nl +:+
  "        }" +:+ nl +:+
  "        a:hover {" +:+ nl +:+
  "            text-decoration: underline;" +:+ nl +:+
  "        }" +:+ nl +:+
  "        button {" +:+ nl +:+
  "            margin-left: 10px;" +:+ nl +:+
  "            padding: 5px 10px;" +:+ nl +:+
  "            cursor: pointer;" +:+ nl +:+
  "            background-color: #007BFF;" +:+ nl +:+
  "            color: #FFF;" +:+ nl +:+
  "            border: none;" +:+ nl +:+
  "            border-radius: 3px;" +:+ nl +:+
  "        }" +:+ nl +:+
  "        button:hover {" +:+ nl +:+
  "            background-color: #0056b3;" +:+ nl +:+
  "        }" +:+ nl +:+
  "        .copy-notification {" +:+ nl +:+
  "            position: fixed;" +:+ nl +:+
  "            top: 20em; /* Adjusted position to avoid overlapping with the title */" +:+ nl +:+
  "            left: 50%;" +:+ nl +:+
  "            transform: translateX(-50%);" +:+ nl +:+
  "            display: none;" +:+ nl +:+
  "            padding: 10px;" +:+ nl +:+
  "            background-color: #dff0d8;" +:+ nl +:+
  "            color: #3c763d;" +:+ nl +:+
  "            border: 1px solid #d6e9c6;" +:+ nl +:+
  "            border-radius: 4px;" +:+ nl +:+
  "            text-align: center;" +:+ nl +:+
  "            width: fit-content;" +:+ nl +:+
  "        }" +:+ nl +:+
  "        .column {" +:+ nl +:+
  "            float: left;" +:+ nl +:+
  "            width: 33.33%;" +:+ nl +:+
  "        }" +:+ nl +:+
  "    </style>" +:+ nl +:+
  "    <!-- Twitter -->" +:+ nl +:+
  "    <meta name=" +:+ dq +:+ "twitter:card" +:+ dq +:+ " content=" +:+ dq +:+ "summary_large_image" +:+ dq +:+ ">" +:+ nl +:+
  "    <meta name=" +:+ dq +:+ "twitter:site" +:+ dq +:+ " content=" +:+ dq +:+ "@EdoardoTosin" +:+ dq +:+ ">" +:+ nl +:+
  "    <meta name=" +:+ dq +:+ "twitter:creator" +:+ dq +:+ " content=" +:+ dq +:+ "@EdoardoTosin" +:+ dq +:+ ">" +:+ nl +:+
  "    <meta name=" +:+ dq +:+ "twitter:title" +:+ dq +:+ " content=" +:+ dq +:+ "Automation Tools" +:+ dq +:+ ">" +:+ nl +:+
  "    <meta name=" +:+ dq +:+ "twitter:description" +:+ dq +:+ " content=" +:+ dq +:+ "Welcome to my personal tech hub! This website is a reflection of my journey in the fascinating world of technology. The blog section is a curated collection of posts demonstrati..." +:+ dq +:+ ">" +:+ nl +:+
  "    <meta property=" +:+ dq +:+ "twitter:image" +:+ dq +:+ " content=" +:+ dq +:+ "https://edoardotosin.com/assets/img/OGImg.jpg" +:+ dq +:+ ">" +:+ nl +:+
  "</head>" +:+ nl +:+
  "<body>" +:+ nl +:+
  "    <h1>Automation Tools</h1>" +:+ nl +:+
  "    <div class=" +:+ dq +:+ "copy-notification" +:+ dq +:+ " id=" +:+ dq +:+ "copyNotification" +:+ dq +:+ ">Command copied to clipboard!</div>" +:+ nl +:+
  "    ".

Definition page_tail : string :=
  nl +:+
  "    <script>" +:+ nl +:+
  "        function copyCommand(filename) {" +:+ nl +:+
  "            const baseUrl = '" +:+ base_url +:+ "';" +:+ nl +:+
  "            let command;" +:+ nl +:+
  nl +:+
  "            if (filename.endsWith('.sh') || filename.endsWith('.bash')) {" +:+ nl +:+
  "                command = `" +:+ curl_linux +:+ " " +:+ dq +:+ "${baseUrl}${filename}" +:+ dq +:+ " | bash`;" +:+ nl +:+
  "            } else if (filename.endsWith('.py') || filename.endsWith('.pyw')) {" +:+ nl +:+
  "                command = `" +:+ curl_linux +:+ " " +:+ dq +:+ "${baseUrl}${filename}" +:+ dq +:+ " | python3`;" +:+ nl +:+
  "            } else if (filename.endsWith('.ps1')) {" +:+ nl +:+
  "                command = `" +:+ curl_win +:+ " " +:+ dq +:+ "${baseUrl}${filename}" +:+ dq +:+ " | Invoke-Expression`;" +:+ nl +:+
  "            } else {" +:+ nl +:+
  "                alert('Unsupported file type!');" +:+ nl +:+
  "                return;" +:+ nl +:+
  "            }" +:+ nl +:+
  nl +:+
  "            navigator.clipboard.writeText(command).then(() => {" +:+ nl +:+
  "                const notification = document.getElementById('copyNotification');" +:+ nl +:+
  "                notification.style.display = 'block';" +:+ nl +:+
  "                setTimeout(() => {" +:+ nl +:+
  "                    notification.style.display = 'none';" +:+ nl +:+
  "                }, 2000);" +:+ nl +:+
  "            }, (err) => {" +:+ nl +:+
  "                alert('Failed to copy!', err);" +:+ nl +:+
  "            });" +:+ nl +:+
  "        }" +:+ nl +:+
  "    </script>" +:+ nl +:+
  "</body>" +:+ nl +:+
  "</html>" +:+ nl.

Definition html_content (files : list string) : string :=
  page_head +:+ generate_list_items files +:+ page_tail.

(** ** Scan (source line 57) *)

Definition script_suffixes : list string := [".sh"; ".bash"; ".py"; ".pyw"; ".ps1"].

(** The list comprehension over [os.listdir]: directory order is kept. *)
Definition scan (entries : list string) : list string :=
  List.filter (fun file => endswith_any file script_suffixes) entries.

(** ** Effects: the directory, the file store and standard output

    The run talks to its surroundings three times: [os.listdir], [open] with
    mode ['w'] followed by [write], and [print].  What the surroundings answer
    is an [environment]; what the run changes is an [os_state]. *)

(** A raised exception, as far as the handler reads it: [str(e)].  Every
    failure of [os.listdir], [open] and [write] is an [OSError] or a
    [ValueError], both subclasses of [Exception]. *)
Record Exception := mkException { exc_str : string }.

Record os_state := OsState {
  fs : gmap string string;
  stdout : list string
}.

Record environment := Environment {
  (** the names [os.listdir path] returns, in its order, or its failure *)
  listdir_result : string -> Exception + list string;
  (** whether opening [path] for writing fails *)
  open_result : string -> option Exception;
  (** whether the write fails, and after how many characters *)
  write_result : option (Exception * nat)
}.

(** Computations that read and change the [os_state] and may raise. *)
Definition M (A : Type) : Type := os_state -> (Exception + A) * os_state.

#[global] Instance M_ret : MRet M := fun A (a : A) st => (inr a, st).

#[global] Instance M_bind : MBind M := fun A B (f : A -> M B) (m : M A) st =>
  match m st with
  | (inr a, st') => f a st'
  | (inl e, st') => (inl e, st')
  end.

Definition raise {A} (e : Exception) : M A := fun st => (inl e, st).

Definition modify (f : os_state -> os_state) : M unit := fun st => (inr tt, f st).

(** [try: body except Exception as e: handler e] *)
Definition try_except {A} (body : M A) (handler : Exception -> M A) : M A :=
  fun st =>
    match body st with
    | (inr a, st') => (inr a, st')
    | (inl e, st') => handler e st'
    end.

Definition set_file (path content : string) : M unit :=
  modify (fun st => OsState (<[path := content]> (fs st)) (stdout st)).

Definition os_listdir (env : environment) (path : string) : M (list string) :=
  match listdir_result env path with
  | inl e => raise e
  | inr names => mret names
  end.

(** [open(path, 'w')] creates the file or empties it. *)
Definition open_w (env : environment) (path : string) : M unit :=
  match open_result env path with
  | Some e => raise e
  | None => set_file path EmptyString
  end.

(** [file.write(content)] and the close at the end of the [with] block; a
    failed write may leave a prefix of the content behind. *)
Definition file_write (env : environment) (path content : string) : M unit :=
  match write_result env with
  | Some (e, k) => set_file path (String.substring 0 k content);; raise e
  | None => set_file path content
  end.

Definition print (line : string) : M unit :=
  modify (fun st => OsState (fs st) (stdout st ++ [line])).

(** [os.path.join] of [posixpath] for two components. *)
Definition os_path_join (a b : string) : string :=
  if String.prefix "/" b then b
  else if String.eqb a EmptyString || endswith a "/" then a +:+ b
  else a +:+ "/" +:+ b.

Definition index_path : string := os_path_join scripts_dir "index.html".

Definition success_message : string := "HTML file generated successfully!".

(** The [try] block (source lines 57-178). *)
Definition try_block (env : environment) : M unit :=
  entries ← os_listdir env scripts_dir;
  let files := scan entries in
  let document := html_content files in
  open_w env index_path;;
  file_write env index_path document;;
  print success_message.

(** The whole script: the [try] block under its handler (lines 56-181). *)
Definition main (env : environment) : M unit :=
  try_except (try_block env) (fun e => print ("Error: " +:+ exc_str e)).

(** How the interpreter ends: status 0 when the module body returns, status
    1 with a traceback when an exception leaves it. *)
Definition exit_status {A} (r : Exception + A) : nat :=
  match r with inr _ => 0 | inl _ => 1 end.

(** ** The clipboard script of the page (source lines 146-170)

    The template carries the JavaScript function that the copy buttons call.
    It is modelled by the browser actions it performs, in order; whether the
    clipboard takes the text is the browser's answer.  The delay before the
    notice is hidden again (2000 ms) is not modelled. *)





(** The link of a file as the items write it, and text that holds a given
    piece. *)
Definition file_link (file : string) : string :=
  "<a href=" +:+ dq +:+ file +:+ dq +:+ ">" +:+ file +:+ "</a>".

Definition contains (text piece : string) : Prop :=
  exists before after, text = before +:+ piece +:+ after.

(** ** Reading a page back: a tag scanner

    To state what a rendered page holds, the page is read the way a strict
    HTML reader would: character by character, keeping the stack of elements
    that are open.  Attribute values are taken in double quotes, as the
    templates write them; [<!...>] covers the doctype and the comments of the
    template; the bodies of [script] and [style] are read as character data,
    which is stricter than HTML asks for. *)

Inductive mode :=
| Text                      (* character data *)
| TagOpen                   (* just after a [<] *)
| StartName (name : string) (* in the name of a start tag *)
| Attrs (name : string)     (* in a start tag, outside attribute values *)
| Quoted (name : string)    (* in a double-quoted attribute value *)
| SelfClose (name : string) (* after the [/] of [<name ... />] *)
| EndName (name : string)   (* in the name of an end tag *)
| Markup                    (* in [<! ... >] *)
| Malformed.                (* the input was refused *)

Record reader := Reader {
  rmode : mode;
  open_elements : list string  (* innermost first *)
}.

(** An element of the page: its name and the elements it was opened in. *)
Abbreviation element := (string * list string)%type.

Definition is_alpha (c : ascii) : bool :=
  let n := nat_of_ascii c in
  (65 <=? n) && (n <=? 90) || (97 <=? n) && (n <=? 122).

Definition is_alnum (c : ascii) : bool :=
  let n := nat_of_ascii c in
  (48 <=? n) && (n <=? 57) || is_alpha c.

Definition void_elements : list string :=
  ["area"; "base"; "br"; "col"; "embed"; "hr"; "img"; "input"; "link"; "meta";
   "source"; "track"; "wbr"].

Definition snoc (name : string) (c : ascii) : string :=
  name +:+ String c EmptyString.

(** The [>] of a start tag: a void element has no content and stays closed. *)
Definition start_tag (name : string) (stack : list string) : reader :=
  if existsb (String.eqb name) void_elements then Reader Text stack
  else Reader Text (name :: stack).

(** The [>] of an end tag: it must close the innermost open element. *)
Definition end_tag (name : string) (stack : list string) : reader :=
  match stack with
  | top :: rest => if String.eqb top name then Reader Text rest else Reader Malformed stack
  | [] => Reader Malformed stack
  end.

Definition step (r : reader) (c : ascii) : reader :=
  let stack := open_elements r in
  match rmode r with
  | Text => if Ascii.eqb c "<" then Reader TagOpen stack else r
  | TagOpen =>
      if Ascii.eqb c "/" then Reader (EndName EmptyString) stack
      else if Ascii.eqb c "!" then Reader Markup stack
      else if is_alpha c then Reader (StartName (String c EmptyString)) stack
      else Reader Malformed stack
  | StartName name =>
      if is_alnum c then Reader (StartName (snoc name c)) stack
      else if Ascii.is_space c then Reader (Attrs name) stack
      else if Ascii.eqb c ">" then start_tag name stack
      else if Ascii.eqb c "/" then Reader (SelfClose name) stack
      else Reader Malformed stack
  | Attrs name =>
      if Ascii.eqb c "034" then Reader (Quoted name) stack
      else if Ascii.eqb c ">" then start_tag name stack
      else if Ascii.eqb c "/" then Reader (SelfClose name) stack
      else if Ascii.eqb c "<" then Reader Malformed stack
      else r
  | Quoted name => if Ascii.eqb c "034" then Reader (Attrs name) stack else r
  | SelfClose name =>
      if Ascii.eqb c ">" then Reader Text stack else Reader Malformed stack
  | EndName name =>
      if is_alnum c then Reader (EndName (snoc name c)) stack
      else if Ascii.eqb c ">" then end_tag name stack
      else Reader Malformed stack
  | Markup => if Ascii.eqb c ">" then Reader Text stack else r
  | Malformed => r
  end.

(** The element a character completes, when it is the [>] of a start tag. *)
Definition opened (r : reader) (c : ascii) : list element :=
  match rmode r with
  | StartName name | Attrs name | SelfClose name =>
      if Ascii.eqb c ">" then [(name, open_elements r)] else []
  | _ => []
  end.

Fixpoint read (s : string) (r : reader) : reader :=
  match s with
  | EmptyString => r
  | String c s' => read s' (step r c)
  end.

Fixpoint elements_from (s : string) (r : reader) : list element :=
  match s with
  | EmptyString => []
  | String c s' => opened r c ++ elements_from s' (step r c)
  end.

Definition start : reader := Reader Text [].

(** Every tag is complete and every element opened has been closed. *)
Definition well_formed (page : string) : Prop :=
  read page start = Reader Text [].

Definition elements (page : string) : list element := elements_from page start.

Definition named (names : list string) (es : list element) : list element :=
  List.filter (fun e => existsb (String.eqb (fst e)) names) es.

(** The elements a reader meets, by the place in the page.  The columns
    stand in [body]; a column is a [div] holding a [ul]; an item is a [li]
    holding a [button] and a link. *)
Definition body_context : list string := ["body"; "html"].
Definition column_context : list string := ["div"; "body"; "html"].
Definition list_context : list string := ["ul"; "div"; "body"; "html"].

Definition item_elements : list element :=
  [("li", list_context); ("button", "li" :: list_context); ("a", "li" :: list_context)].

Definition items_elements (column : list string) : list element :=
  concat (map (fun _ => item_elements) column).

Definition column_elements (column : list string) : list element :=
  ("div", body_context) :: ("ul", column_context) :: items_elements column.

Definition head_elements : list element := elements_from page_head start.
Definition tail_elements : list element :=
  elements_from page_tail (Reader Text body_context).

(** An element at the root or right under it. *)
Definition shallow (e : element) : bool := length (snd e) <=? 1.

(** ** Predicates the statements use *)

(** A name that writes no markup of its own: no [<] and no double quote. *)
Fixpoint markup_free (s : string) : bool :=
  match s with
  | EmptyString => true
  | String c s' => negb (Ascii.eqb c "<") && negb (Ascii.eqb c "034") && markup_free s'
  end.

(** The list structure a page should show for [files]: per column one [ul]
    inside its [div], and under it one [li] per file of the column. *)
Definition column_outline (column : list string) : list element :=
  ("ul", column_context) :: repeat ("li", list_context) (length column).

(** The page invariant of the data model: a complete, well-formed document
    (one [html] root with [head] and [body]) whose lists hold one item per
    file, each under the [ul] of exactly one column. *)
Definition rendered_page_invariant (files : list string) : Prop :=
  let page := html_content files in
  String.prefix "<!DOCTYPE html>" page = true /\
  well_formed page /\
  List.filter shallow (elements page)
    = [("html", []); ("head", ["html"]); ("body", ["html"])] /\
  named ["ul"; "li"] (elements page)
    = concat (map column_outline (column_slices files)) /\
  length (named ["li"] (elements page)) = length files.

(** ASCII lower-casing, for the variants of a suffix. *)
Definition ascii_lower (c : ascii) : ascii :=
  let n := nat_of_ascii c in
  if (65 <=? n) && (n <=? 90) then ascii_of_nat (n + 32) else c.

Fixpoint str_lower (s : string) : string :=
  match s with
  | EmptyString => EmptyString
  | String c s' => String (ascii_lower c) (str_lower s')
  end.

(** Occurrences of [pat] in [s], overlapping ones included. *)
Fixpoint count_occurrences (pat s : string) : nat :=
  match s with
  | EmptyString => 0
  | String _ s' =>
      (if String.prefix pat s then 1 else 0) + count_occurrences pat s'
  end.

(** The install command as the specification words it:
    [<fetch> '<base URL><file>' | <interpreter>]. *)
Definition install_command (fetch file interpreter : string) : string :=
  fetch +:+ " '" +:+ base_url +:+ file +:+ "' | " +:+ interpreter.

(** A list item whose button announces [command] for [file]. *)
Definition copy_item (file command : string) : string :=
  nl +:+
  "            <li>" +:+ nl +:+
  "                <button onclick=" +:+ dq +:+ "copyCommand('" +:+ file +:+ "')" +:+ dq +:+ " title=" +:+ dq +:+ "Click to copy command: " +:+ command +:+ dq +:+ ">Copy</button>" +:+ nl +:+
  "                <a href=" +:+ dq +:+ file +:+ dq +:+ ">" +:+ file +:+ "</a>" +:+ nl +:+
  "            </li>" +:+ nl +:+
  "            ".

(** ** Lemmas on the built-ins *)

Lemma endswith_nil suffix :
  endswith EmptyString suffix = String.eqb EmptyString suffix.
Proof. apply orb_false_r. Qed.

Lemma endswith_cons a s suffix :
  endswith (String a s) suffix
  = String.eqb (String a s) suffix || endswith s suffix.
Proof. done. Qed.

Lemma endswith_spec s suffix :
  endswith s suffix = true <-> exists p, s = p +:+ suffix.
Proof.
  induction s as [|a s IH].
  - rewrite endswith_nil, String.eqb_eq. split.
    + intros <-. by exists EmptyString.
    + intros [[|b p] Hp]; [done | discriminate].
  - rewrite endswith_cons, orb_true_iff, String.eqb_eq, IH. split.
    + intros [<- | [p ->]]; [by exists EmptyString | by exists (String a p)].
    + intros [[|b p] Hp]; [by left | right].
      injection Hp as -> ->. by exists p.
Qed.

Lemma ceil_div_bounds a b :
  0 < b -> a <= b * ceil_div a b /\ b * ceil_div a b < a + b.
Proof.
  intros Hb. unfold ceil_div.
  pose proof (Nat.div_mod_eq a b) as Hdm.
  pose proof (Nat.mod_upper_bound a b ltac:(lia)) as Hlt.
  destruct (Nat.eqb_spec (a mod b) 0) as [Hz | Hnz]; nia.
Qed.

Lemma slice_length {A} (l : list A) start stop :
  stop <= length l -> length (slice l start stop) = stop - start.
Proof.
  intros Hs. unfold slice. rewrite length_take, length_drop. lia.
Qed.

(** Consecutive slices of width [c] glue back into a prefix of the list. *)
Lemma concat_slices {A} (l : list A) c k :
  concat (map (fun i => slice l (i * c) (min ((i + 1) * c) (length l))) (seq 0 k))
  = take (k * c) l.
Proof.
  induction k as [|k IH]; [done|].
  rewrite seq_S, map_app, concat_app, IH. simpl. rewrite app_nil_r.
  unfold slice.
  destruct (decide ((k + 1) * c <= length l)) as [Hle | Hgt].
  - rewrite Nat.min_l by done.
    replace ((k + 1) * c - k * c) with c by lia.
    replace (c + k * c) with (k * c + c) by lia.
    by rewrite take_take_drop.
  - rewrite Nat.min_r by lia.
    rewrite (take_ge l (c + k * c)) by lia.
    rewrite (take_ge (drop _ _)) by (rewrite length_drop; lia).
    by rewrite take_drop.
Qed.

(** ** Partition *)

Lemma num_per_column_bounds files :
  length files <= 3 * num_per_column files
  /\ 3 * num_per_column files < length files + 3.
Proof. apply (ceil_div_bounds (length files) 3). lia. Qed.

Lemma column_files_lookup files i k :
  column_files files i !! k
  = if decide (start_index files i + k < end_index files i)
    then files !! (start_index files i + k) else None.
Proof.
  unfold column_files, slice. case_decide as Hk.
  - rewrite lookup_take_lt by lia. apply lookup_drop.
  - apply lookup_take_ge. lia.
Qed.

Lemma column_files_length files i :
  length (column_files files i) = end_index files i - start_index files i.
Proof. apply slice_length. unfold end_index. lia. Qed.

Lemma concat_column_slices files : concat (column_slices files) = files.
Proof.
  unfold column_slices, column_files, start_index, end_index.
  rewrite (concat_slices files (num_per_column files) num_columns).
  apply take_ge. pose proof (num_per_column_bounds files). unfold num_columns. lia.
Qed.

Lemma column_slices_length files : length (column_slices files) = 3.
Proof. done. Qed.

(** Every position of the list falls into the range of one column only. *)
Lemma position_in_one_column files j :
  j < length files ->
  exists i, i < 3
    /\ (start_index files i <= j < end_index files i)
    /\ forall i', start_index files i' <= j < end_index files i' -> i' = i.
Proof.
  intros Hj. pose proof (num_per_column_bounds files) as [Hup _].
  unfold start_index, end_index.
  set (c := num_per_column files) in *.
  assert (0 < c) as Hc by lia.
  exists (j / c).
  pose proof (Nat.Div0.mul_div_le j c) as Hlo.
  pose proof (Nat.mul_succ_div_gt j c ltac:(lia)) as Hhi.
  split; [apply Nat.Div0.div_lt_upper_bound; lia|].
  split; [split; [lia | apply Nat.min_glb_lt; lia]|].
  intros i' [Hs He].
  apply Nat.min_glb_lt_iff in He as [He _].
  apply (Nat.div_unique j c i' (j - i' * c)); lia.
Qed.

(** C1. Partition correctness: with [F] files, [c = ceil (F / 3)] and three
    columns, column [i] holds exactly the files at the positions
    [i * c <= j < min ((i + 1) * c) F], in order; every position of the list
    lies in the range of exactly one column; the columns concatenated in
    order give the list back; a column holds [c] files unless it is a
    trailing one, which holds fewer and leaves the columns after it empty;
    and the sizes add up to [F]. *)
Theorem partition_correct (files : list string) :
  let F := length files in
  let c := ceil_div F 3 in
  (F <= 3 * c < F + 3) /\
  (forall i k, i < 3 ->
     column_slices files !! i = Some (column_files files i) /\
     column_files files i !! k
     = if decide (i * c + k < Nat.min ((i + 1) * c) F)
       then files !! (i * c + k) else None) /\
  (forall j, j < F ->
     exists i, i < 3 /\ (i * c <= j < Nat.min ((i + 1) * c) F) /\
       forall i', i' * c <= j < Nat.min ((i' + 1) * c) F -> i' = i) /\
  concat (column_slices files) = files /\
  (forall i, i < 3 ->
     length (column_files files i) <= c /\
     (length (column_files files i) < c ->
      forall i', i < i' -> column_files files i' = [])) /\
  sum_list (map length (column_slices files)) = F.
Proof.
  intros F c. pose proof (num_per_column_bounds files) as Hb.
  change (num_per_column files) with c in Hb. fold F in Hb.
  split; [lia|]. split; [|split; [|split; [|split]]].
  - intros i k Hi. split.
    + destruct i as [|[|[|i]]]; [done..|lia].
    + apply column_files_lookup.
  - intros j Hj. apply (position_in_one_column files j Hj).
  - apply concat_column_slices.
  - intros i Hi. rewrite column_files_length.
    unfold end_index, start_index. change (num_per_column files) with c. fold F.
    split; [lia|]. intros Hshort i' Hlt.
    apply length_zero_iff_nil. rewrite column_files_length.
    unfold end_index, start_index. change (num_per_column files) with c. fold F.
    nia.
  - transitivity (length (concat (column_slices files)));
      [|by rewrite concat_column_slices].
    unfold column_slices. simpl. rewrite !length_app. simpl. lia.
Qed.

Lemma partition_correct_witness :
  length (column_files ["a"] 1) < ceil_div 1 3 /\ column_files ["a"] 2 = [].
Proof.
  destruct (partition_correct ["a"]) as (_ & _ & _ & _ & Hsize & _).
  assert (length (column_files ["a"] 1) < ceil_div 1 3) as Hshort
    by (vm_compute; lia).
  split; [exact Hshort|].
  exact (proj2 (Hsize 1 ltac:(lia)) Hshort 2 ltac:(lia)).
Defined.

(** ** Strings *)

Lemma str_app_cons (a : ascii) (s t : string) :
  String a s +:+ t = String a (s +:+ t).
Proof. reflexivity. Qed.

Lemma str_app_assoc (s t u : string) : (s +:+ t) +:+ u = s +:+ t +:+ u.
Proof. induction s as [|a s IH]; [done|]. by rewrite !str_app_cons, IH. Qed.

Lemma str_app_length (s t : string) :
  String.length (s +:+ t) = String.length s + String.length t.
Proof. induction s as [|a s IH]; [done|]. rewrite str_app_cons. simpl. by rewrite IH. Qed.

Lemma str_app_eq_r (p t : string) : p +:+ t = t -> p = EmptyString.
Proof.
  intros H. apply (f_equal String.length) in H. rewrite str_app_length in H.
  destruct p; [done|]. simpl in H. lia.
Qed.

Lemma str_lower_app (s t : string) :
  str_lower (s +:+ t) = str_lower s +:+ str_lower t.
Proof.
  induction s as [|a s IH]; [done|].
  rewrite str_app_cons. simpl. by rewrite IH, str_app_cons.
Qed.

Lemma str_lower_nil (s : string) : str_lower s = EmptyString -> s = EmptyString.
Proof. by destruct s. Qed.

(** ** Suffix tests *)

Lemma endswith_app (p suffix : string) : endswith (p +:+ suffix) suffix = true.
Proof. apply endswith_spec. by exists p. Qed.

(** Two suffixes of one string: one of them ends with the other. *)
Lemma endswith_comparable (s a b : string) :
  endswith s a = true -> endswith s b = true ->
  endswith a b = true \/ endswith b a = true.
Proof.
  induction s as [|c s IH].
  - rewrite !endswith_nil, !String.eqb_eq. intros <- <-. by left.
  - rewrite !endswith_cons, !orb_true_iff, !String.eqb_eq.
    intros [<- | Ha] [<- | Hb]; [left | left | right | by apply IH].
    + apply endswith_app with (p := EmptyString).
    + rewrite endswith_cons, Hb. apply orb_true_r.
    + rewrite endswith_cons, Ha. apply orb_true_r.
Qed.

Lemma endswith_any_true (s : string) (suffixes : list string) :
  endswith_any s suffixes = true
  <-> exists suffix, In suffix suffixes /\ endswith s suffix = true.
Proof. apply existsb_exists. Qed.

Lemma endswith_any_false (s : string) (suffixes : list string) :
  endswith_any s suffixes = false
  <-> forall suffix, In suffix suffixes -> endswith s suffix = false.
Proof.
  unfold endswith_any. rewrite <- not_true_iff_false, existsb_exists. split.
  - intros Hn suffix Hin. apply not_true_iff_false. intros Ht. apply Hn. eauto.
  - intros Hall (suffix & Hin & Ht). rewrite (Hall suffix Hin) in Ht. done.
Qed.

(** No recognised suffix ends with another one. *)
Lemma script_suffixes_apart (a b : string) :
  In a script_suffixes -> In b script_suffixes -> endswith a b = true -> a = b.
Proof.
  unfold script_suffixes. simpl.
  intros [<- | [<- | [<- | [<- | [<- | []]]]]] [<- | [<- | [<- | [<- | [<- | []]]]]];
    vm_compute; first [reflexivity | discriminate].
Qed.

Lemma script_suffixes_lower (a : string) :
  In a script_suffixes -> str_lower a = a.
Proof.
  unfold script_suffixes. simpl.
  intros [<- | [<- | [<- | [<- | [<- | []]]]]]; reflexivity.
Qed.

(** The suffix a name carries decides the branch. *)
Lemma one_suffix_only (s a b : string) :
  In a script_suffixes -> In b script_suffixes ->
  endswith s a = true -> endswith s b = true -> a = b.
Proof.
  intros Ha Hb Hsa Hsb.
  destruct (endswith_comparable s a b Hsa Hsb) as [H | H].
  - by apply script_suffixes_apart.
  - symmetry. by apply script_suffixes_apart.
Qed.

Lemma scan_in (entries : list string) (name : string) :
  In name (scan entries)
  <-> In name entries /\ endswith_any name script_suffixes = true.
Proof. apply filter_In. Qed.

Lemma scan_app (l1 l2 : list string) : scan (l1 ++ l2) = scan l1 ++ scan l2.
Proof. apply List.filter_app. Qed.

Lemma scan_skip (l1 l2 : list string) (name : string) :
  endswith_any name script_suffixes = false ->
  scan (l1 ++ name :: l2) = scan (l1 ++ l2).
Proof.
  intros Hn. rewrite !scan_app. f_equal.
  change (scan (name :: l2))
    with (if endswith_any name script_suffixes then name :: scan l2 else scan l2).
  by rewrite Hn.
Qed.

(** ** Classification *)

Lemma li_bash_command (file : string) :
  li_bash file = copy_item file (install_command curl_linux file "bash").
Proof.
  unfold li_bash, copy_item, install_command. by rewrite !str_app_assoc.
Qed.

Lemma li_python3_command (file : string) :
  li_python3 file = copy_item file (install_command curl_linux file "python3").
Proof.
  unfold li_python3, copy_item, install_command. by rewrite !str_app_assoc.
Qed.

Lemma li_invoke_expression_command (file : string) :
  li_invoke_expression file
  = copy_item file (install_command curl_win file "Invoke-Expression").
Proof.
  unfold li_invoke_expression, copy_item, install_command.
  by rewrite !str_app_assoc.
Qed.

(** A name with one of the suffixes [yes] has none of the suffixes [no] when
    the two lists are parts of the recognised ones and share nothing. *)
Lemma endswith_any_apart (file : string) (yes no : list string) :
  (forall a, In a yes -> In a script_suffixes) ->
  (forall b, In b no -> In b script_suffixes /\ ~ In b yes) ->
  endswith_any file yes = true -> endswith_any file no = false.
Proof.
  intros Hyes Hno [a [Ha Hfa]]%endswith_any_true.
  apply endswith_any_false. intros b Hb. apply not_true_iff_false. intros Hfb.
  destruct (Hno b Hb) as [Hbs Hnb]. apply Hnb.
  by rewrite <- (one_suffix_only file a b (Hyes a Ha) Hbs Hfa Hfb).
Qed.

Lemma render_item_bash (file : string) :
  endswith_any file [".sh"; ".bash"] = true -> render_item file = li_bash file.
Proof. unfold render_item. by intros ->. Qed.

Lemma render_item_python3 (file : string) :
  endswith_any file [".py"; ".pyw"] = true -> render_item file = li_python3 file.
Proof.
  intros Hpy. unfold render_item. rewrite Hpy.
  rewrite (endswith_any_apart file [".py"; ".pyw"] [".sh"; ".bash"]); [done| | |done].
  - unfold script_suffixes. simpl. tauto.
  - unfold script_suffixes. simpl. intros b [<- | [<- | []]]; split; try tauto;
      intros [? | [? | []]]; discriminate.
Qed.

Lemma render_item_invoke_expression (file : string) :
  endswith file ".ps1" = true -> render_item file = li_invoke_expression file.
Proof.
  intros Hps. unfold render_item. rewrite Hps.
  assert (endswith_any file [".ps1"] = true) as Hany
    by (unfold endswith_any; simpl; by rewrite Hps).
  rewrite (endswith_any_apart file [".ps1"] [".sh"; ".bash"]); [| | |done].
  - rewrite (endswith_any_apart file [".ps1"] [".py"; ".pyw"]); [done| | |done].
    + unfold script_suffixes. simpl. tauto.
    + unfold script_suffixes. simpl. intros b [<- | [<- | []]]; split; try tauto;
        intros [? | []]; discriminate.
  - unfold script_suffixes. simpl. tauto.
  - unfold script_suffixes. simpl. intros b [<- | [<- | []]]; split; try tauto;
      intros [? | []]; discriminate.
Qed.

(** C2. Install-command classification: a name ending in [.sh] or [.bash]
    gets the item whose command is the Linux fetch, the quoted base URL and
    name, piped to [bash]; [.py] and [.pyw] pipe the same fetch to [python3];
    [.ps1] uses the Windows fetch piped to [Invoke-Expression].  For [x.sh]
    the command reads
    [curl -sSL 'https://edoardotosin.com/tools/x.sh' | bash]. *)
Theorem install_command_classification (file : string) :
  (endswith_any file [".sh"; ".bash"] = true ->
   render_item file = copy_item file (install_command curl_linux file "bash")) /\
  (endswith_any file [".py"; ".pyw"] = true ->
   render_item file = copy_item file (install_command curl_linux file "python3")) /\
  (endswith file ".ps1" = true ->
   render_item file
   = copy_item file (install_command curl_win file "Invoke-Expression")) /\
  install_command curl_linux "x.sh" "bash"
  = "curl -sSL 'https://edoardotosin.com/tools/x.sh' | bash" /\
  install_command curl_linux "x.py" "python3"
  = "curl -sSL 'https://edoardotosin.com/tools/x.py' | python3" /\
  install_command curl_win "x.ps1" "Invoke-Expression"
  = "Invoke-RestMethod 'https://edoardotosin.com/tools/x.ps1' | Invoke-Expression".
Proof.
  repeat split.
  - intros H. by rewrite render_item_bash, li_bash_command.
  - intros H. by rewrite render_item_python3, li_python3_command.
  - intros H. by rewrite render_item_invoke_expression, li_invoke_expression_command.
Qed.

Lemma install_command_classification_witness :
  render_item "x.sh"
  = copy_item "x.sh" "curl -sSL 'https://edoardotosin.com/tools/x.sh' | bash"
  /\ render_item "tool.pyw"
     = copy_item "tool.pyw"
         "curl -sSL 'https://edoardotosin.com/tools/tool.pyw' | python3"
  /\ render_item "setup.ps1"
     = copy_item "setup.ps1"
         "Invoke-RestMethod 'https://edoardotosin.com/tools/setup.ps1' | Invoke-Expression".
Proof.
  split; [|split].
  - apply (proj1 (install_command_classification "x.sh")). reflexivity.
  - apply (proj1 (proj2 (install_command_classification "tool.pyw"))). reflexivity.
  - apply (proj1 (proj2 (proj2 (install_command_classification "setup.ps1")))).
    reflexivity.
Defined.

(** ** The scan and the fallback *)

(** The three conditions of [render_item] cover the five suffixes. *)
Lemma script_suffixes_split (file : string) :
  endswith_any file script_suffixes
  = endswith_any file [".sh"; ".bash"] || endswith_any file [".py"; ".pyw"]
    || endswith file ".ps1".
Proof.
  unfold endswith_any, script_suffixes. simpl.
  rewrite !orb_false_r. by rewrite <- !orb_assoc.
Qed.

Lemma li_unsupported_differs (file : string) :
  li_bash file <> li_unsupported file
  /\ li_python3 file <> li_unsupported file
  /\ li_invoke_expression file <> li_unsupported file.
Proof. repeat split; intros H; vm_compute in H; discriminate H. Qed.

(** C8. Unreachable fallback: [render_item] has a fourth, fallback branch
    (the item that says [Unsupported file type], in its alert and in its
    title), which a name without a recognised suffix takes; a file of a list
    that the scan produced takes one of the first three branches and never
    the fallback. *)
Theorem fallback_unreachable (entries : list string) (file : string) :
  (endswith_any file script_suffixes = false ->
   render_item file = li_unsupported file) /\
  render_item "notes.txt" = li_unsupported "notes.txt" /\
  count_occurrences "Unsupported file type" (render_item "notes.txt") = 2 /\
  (In file (scan entries) ->
   (render_item file = li_bash file
    \/ render_item file = li_python3 file
    \/ render_item file = li_invoke_expression file)
   /\ render_item file <> li_unsupported file).
Proof.
  split; [|split; [reflexivity|split; [by vm_compute|]]].
  - rewrite script_suffixes_split, !orb_false_iff. intros [[Hsh Hpy] Hps].
    unfold render_item. by rewrite Hsh, Hpy, Hps.
  - intros [_ Hsuf]%scan_in.
    rewrite script_suffixes_split, !orb_true_iff in Hsuf.
    destruct (li_unsupported_differs file) as (Hb & Hp & Hi).
    destruct Hsuf as [[Hsh | Hpy] | Hps].
    + rewrite (render_item_bash file Hsh). auto.
    + rewrite (render_item_python3 file Hpy). auto.
    + rewrite (render_item_invoke_expression file Hps). auto.
Qed.

Lemma fallback_unreachable_witness :
  render_item "b.py" <> li_unsupported "b.py".
Proof.
  apply (proj2 (proj2 (proj2 (fallback_unreachable ["a.sh"; "b.py"; "d.txt"] "b.py")))).
  vm_compute. tauto.
Defined.

(** C3. Scan filter: an entry is in the filtered list exactly when it was
    listed and its name is some stem followed by one of [.sh], [.bash],
    [.py], [.pyw], [.ps1]; any other entry is not handed to the rendering and
    leaves no trace in the document, which is the one the listing without
    that entry gives.  In the listing [a.sh, b.py, c.ps1, d.txt] the text
    [d.txt] occurs nowhere in the page. *)
Theorem scan_filter (entries : list string) (name : string) :
  (In name (scan entries)
   <-> In name entries
       /\ exists stem suffix,
            In suffix [".sh"; ".bash"; ".py"; ".pyw"; ".ps1"]
            /\ name = stem +:+ suffix) /\
  (endswith_any name script_suffixes = false ->
   ~ In name (scan entries)
   /\ forall before after, entries = before ++ name :: after ->
        scan entries = scan (before ++ after)
        /\ html_content (scan entries) = html_content (scan (before ++ after))) /\
  scan ["a.sh"; "b.py"; "c.ps1"; "d.txt"] = ["a.sh"; "b.py"; "c.ps1"] /\
  count_occurrences "d.txt" (html_content (scan ["a.sh"; "b.py"; "c.ps1"; "d.txt"])) = 0.
Proof.
  split; [|split; [|split; [reflexivity | by vm_compute]]].
  - rewrite scan_in, endswith_any_true. split.
    + intros [Hin (suffix & Hs & [stem ->]%endswith_spec)]. eauto.
    + intros [Hin (stem & suffix & Hs & ->)]. split; [done|].
      exists suffix. split; [done | apply endswith_app].
  - intros Hno. split.
    + rewrite scan_in. intros [_ Hyes]. congruence.
    + intros before after ->. by rewrite (scan_skip before after name Hno).
Qed.

Lemma scan_filter_witness :
  ~ In "d.txt" (scan ["a.sh"; "d.txt"; "b.py"])
  /\ html_content (scan ["a.sh"; "d.txt"; "b.py"])
     = html_content (scan ["a.sh"; "b.py"]).
Proof.
  destruct (proj1 (proj2 (scan_filter ["a.sh"; "d.txt"; "b.py"] "d.txt")))
    as [Hout Hsame]; [reflexivity|].
  split; [exact Hout|].
  exact (proj2 (Hsame ["a.sh"] ["b.py"] eq_refl)).
Defined.

(** ** Letter case *)

(** A name that ends in a suffix written in other letter case ends in no
    recognised suffix. *)
Lemma case_variant_unrecognised (stem v : string) :
  In (str_lower v) script_suffixes -> v <> str_lower v ->
  endswith_any (stem +:+ v) script_suffixes = false.
Proof.
  intros Hs Hne. apply endswith_any_false. intros t Ht.
  apply not_true_iff_false. intros Hend. apply Hne.
  pose proof (script_suffixes_lower t Ht) as Hlt.
  destruct (endswith_comparable (stem +:+ v) v t (endswith_app stem v) Hend)
    as [[w Hw]%endswith_spec | [w Hw]%endswith_spec].
  - assert (str_lower v = t) as Heq.
    { apply script_suffixes_apart; [done..|].
      apply endswith_spec. exists (str_lower w).
      by rewrite Hw at 1; rewrite str_lower_app, Hlt. }
    rewrite Heq. rewrite Hw in Heq. rewrite str_lower_app, Hlt in Heq.
    apply str_app_eq_r, str_lower_nil in Heq. by rewrite Hw, Heq.
  - assert (t = str_lower v) as Heq.
    { apply script_suffixes_apart; [done..|].
      apply endswith_spec. exists (str_lower w).
      by rewrite <- Hlt at 1; rewrite Hw, str_lower_app. }
    assert (w = EmptyString) as ->.
    { apply str_lower_nil, (str_app_eq_r _ (str_lower v)).
      by rewrite <- str_lower_app, <- Hw, Hlt. }
    by rewrite <- Heq, Hw.
Qed.

(** C10. Case-sensitive filtering: a name whose ending is an upper-case or
    mixed-case spelling of a recognised suffix (such as [X.SH] or [y.PY]) ends
    in no recognised suffix, so the scan leaves the entry out and the page is
    the one the listing without it gives. *)
Theorem case_sensitive_filtering (entries : list string) (stem v : string) :
  In (str_lower v) script_suffixes -> v <> str_lower v ->
  ~ In (stem +:+ v) (scan entries)
  /\ forall before after, entries = before ++ (stem +:+ v) :: after ->
       scan entries = scan (before ++ after)
       /\ html_content (scan entries) = html_content (scan (before ++ after)).
Proof.
  intros Hs Hne.
  pose proof (case_variant_unrecognised stem v Hs Hne) as Hno. split.
  - rewrite scan_in. intros [_ Hyes]. congruence.
  - intros before after ->. by rewrite (scan_skip before after _ Hno).
Qed.

Lemma case_sensitive_filtering_witness :
  scan ["X.SH"; "a.sh"; "y.PY"] = ["a.sh"]
  /\ count_occurrences "X.SH" (html_content (scan ["X.SH"; "a.sh"; "y.PY"])) = 0
  /\ count_occurrences "y.PY" (html_content (scan ["X.SH"; "a.sh"; "y.PY"])) = 0
  /\ ~ In "X.SH" (scan ["X.SH"; "a.sh"; "y.PY"])
  /\ ~ In "y.PY" (scan ["X.SH"; "a.sh"; "y.PY"]).
Proof.
  split; [reflexivity|]. split; [by vm_compute|]. split; [by vm_compute|]. split.
  - apply (case_sensitive_filtering ["X.SH"; "a.sh"; "y.PY"] "X" ".SH");
      [vm_compute; tauto | discriminate].
  - apply (case_sensitive_filtering ["X.SH"; "a.sh"; "y.PY"] "y" ".PY");
      [vm_compute; tauto | discriminate].
Defined.

(** ** The run *)

Lemma main_listdir_fails env st e :
  listdir_result env scripts_dir = inl e ->
  main env st
  = (inr tt, OsState (fs st) (stdout st ++ ["Error: " +:+ exc_str e])).
Proof.
  intros Hl. unfold main, try_except, try_block, mbind, M_bind, os_listdir.
  by rewrite Hl.
Qed.

Lemma main_open_fails env st entries e :
  listdir_result env scripts_dir = inr entries ->
  open_result env index_path = Some e ->
  main env st
  = (inr tt, OsState (fs st) (stdout st ++ ["Error: " +:+ exc_str e])).
Proof.
  intros Hl Ho.
  unfold main, try_except, try_block, mbind, M_bind, os_listdir, open_w.
  by rewrite Hl, Ho.
Qed.

Lemma main_write_fails env st entries e k :
  listdir_result env scripts_dir = inr entries ->
  open_result env index_path = None ->
  write_result env = Some (e, k) ->
  main env st
  = (inr tt,
     OsState
       (<[index_path := String.substring 0 k (html_content (scan entries))]> (fs st))
       (stdout st ++ ["Error: " +:+ exc_str e])).
Proof.
  intros Hl Ho Hw.
  unfold main, try_except, try_block, mbind, M_bind, os_listdir, open_w, file_write.
  rewrite Hl, Ho, Hw. unfold print, set_file, modify, mbind, M_bind. simpl.
  by rewrite insert_insert_eq.
Qed.

Lemma main_succeeds env st entries :
  listdir_result env scripts_dir = inr entries ->
  open_result env index_path = None ->
  write_result env = None ->
  main env st
  = (inr tt,
     OsState (<[index_path := html_content (scan entries)]> (fs st))
       (stdout st ++ [success_message])).
Proof.
  intros Hl Ho Hw.
  unfold main, try_except, try_block, mbind, M_bind, os_listdir, open_w, file_write.
  rewrite Hl, Ho, Hw. unfold print, set_file, modify, mbind, M_bind. simpl.
  by rewrite insert_insert_eq.
Qed.

(** The script ends normally whatever the surroundings answer. *)
Lemma main_returns env st : fst (main env st) = inr tt.
Proof.
  destruct (listdir_result env scripts_dir) as [e | entries] eqn:Hl.
  - by rewrite (main_listdir_fails env st e Hl).
  - destruct (open_result env index_path) as [e |] eqn:Ho.
    + by rewrite (main_open_fails env st entries e Hl Ho).
    + destruct (write_result env) as [[e k] |] eqn:Hw.
      * by rewrite (main_write_fails env st entries e k Hl Ho Hw).
      * by rewrite (main_succeeds env st entries Hl Ho Hw).
Qed.

Lemma error_line_not_success (description : string) :
  "Error: " +:+ description <> success_message.
Proof. discriminate. Qed.

(** C6. Top-level error handling: when the listing, the opening or the
    writing fails with exception [e], the handler prints the one line
    [Error: ] followed by [str(e)], the script ends normally with status 0
    (no exception leaves [main]), and the success message is not printed. *)
Theorem top_level_error_handling (env : environment) (st : os_state) (e : Exception) :
  listdir_result env scripts_dir = inl e
  \/ (exists entries,
        listdir_result env scripts_dir = inr entries
        /\ open_result env index_path = Some e)
  \/ (exists entries k,
        listdir_result env scripts_dir = inr entries
        /\ open_result env index_path = None
        /\ write_result env = Some (e, k)) ->
  fst (main env st) = inr tt
  /\ exit_status (fst (main env st)) = 0
  /\ stdout (snd (main env st)) = stdout st ++ ["Error: " +:+ exc_str e]
  /\ ~ In success_message (drop (length (stdout st)) (stdout (snd (main env st)))).
Proof.
  intros Hfail. rewrite (main_returns env st).
  assert (exists files, main env st
    = (inr tt, OsState files (stdout st ++ ["Error: " +:+ exc_str e]))) as [files ->].
  { destruct Hfail as [Hl | [(entries & Hl & Ho) | (entries & k & Hl & Ho & Hw)]].
    - eexists. by apply main_listdir_fails.
    - eexists. by apply (main_open_fails env st entries).
    - eexists. by apply (main_write_fails env st entries e k). }
  simpl. repeat split.
  rewrite drop_app_length. simpl.
  intros [H | []]. by apply (error_line_not_success (exc_str e)).
Qed.

Lemma top_level_error_handling_witness :
  stdout (snd (main
    (Environment
       (fun _ => inl (mkException "[Errno 2] No such file or directory: './scripts'"))
       (fun _ => None) None)
    (OsState ∅ [])))
  = ["Error: [Errno 2] No such file or directory: './scripts'"].
Proof.
  apply (top_level_error_handling
    (Environment
       (fun _ => inl (mkException "[Errno 2] No such file or directory: './scripts'"))
       (fun _ => None) None)
    (OsState ∅ [])
    (mkException "[Errno 2] No such file or directory: './scripts'")).
  left. reflexivity.
Defined.

(** C9. Write effect and frame: on a run without failure the file store
    changes at [./scripts/index.html] only, which now holds the rendered
    document whatever it held before; every other path keeps what it had, and
    standard output gains the one status line. *)
Theorem write_effect_and_frame (env : environment) (st : os_state) (entries : list string) :
  listdir_result env scripts_dir = inr entries ->
  open_result env index_path = None ->
  write_result env = None ->
  index_path = "./scripts/index.html"
  /\ fst (main env st) = inr tt
  /\ fs (snd (main env st))
     = <[index_path := html_content (scan entries)]> (fs st)
  /\ fs (snd (main env st)) !! index_path = Some (html_content (scan entries))
  /\ (forall path, path <> index_path ->
        fs (snd (main env st)) !! path = fs st !! path)
  /\ stdout (snd (main env st)) = stdout st ++ [success_message].
Proof.
  intros Hl Ho Hw. rewrite (main_succeeds env st entries Hl Ho Hw). simpl.
  repeat split.
  - apply lookup_insert_eq.
  - intros path Hne. by apply lookup_insert_ne.
Qed.

Lemma write_effect_and_frame_witness :
  fs (snd (main (Environment (fun _ => inr ["a.sh"; "index.html"]) (fun _ => None) None)
            (OsState {[ "./scripts/index.html" := "old"; "./scripts/a.sh" := "echo" ]} [])))
    !! "./scripts/a.sh"
  = Some "echo".
Proof.
  destruct (write_effect_and_frame
    (Environment (fun _ => inr ["a.sh"; "index.html"]) (fun _ => None) None)
    (OsState {[ "./scripts/index.html" := "old"; "./scripts/a.sh" := "echo" ]} [])
    ["a.sh"; "index.html"] eq_refl eq_refl eq_refl) as (_ & _ & _ & _ & Hframe & _).
  rewrite (Hframe "./scripts/a.sh"); [|discriminate].
  simpl. rewrite lookup_insert_ne; [|discriminate]. apply lookup_singleton_eq.
Defined.

(** C5. Determinism: two runs whose listings return the same names in the
    same order, and which both get to write, leave the same document in
    [index.html] and print the same line, whatever the file store and the
    output held before; the document is a function of the listed names.  The
    [index.html] an earlier run left in the directory is no script and does
    not change the document either. *)
Theorem deterministic_output (env1 env2 : environment) (st1 st2 : os_state)
    (entries : list string) :
  listdir_result env1 scripts_dir = inr entries ->
  listdir_result env2 scripts_dir = inr entries ->
  open_result env1 index_path = None -> write_result env1 = None ->
  open_result env2 index_path = None -> write_result env2 = None ->
  fs (snd (main env1 st1)) !! index_path = fs (snd (main env2 st2)) !! index_path
  /\ fs (snd (main env1 st1)) !! index_path = Some (html_content (scan entries))
  /\ drop (length (stdout st1)) (stdout (snd (main env1 st1)))
     = drop (length (stdout st2)) (stdout (snd (main env2 st2)))
  /\ (forall before after, entries = before ++ after ->
        html_content (scan (before ++ "index.html" :: after))
        = html_content (scan entries)).
Proof.
  intros Hl1 Hl2 Ho1 Hw1 Ho2 Hw2.
  rewrite (main_succeeds env1 st1 entries Hl1 Ho1 Hw1).
  rewrite (main_succeeds env2 st2 entries Hl2 Ho2 Hw2). simpl.
  rewrite !lookup_insert_eq, !drop_app_length. repeat split.
  intros before after ->. by rewrite (scan_skip before after "index.html").
Qed.

Lemma deterministic_output_witness :
  fs (snd (main (Environment (fun _ => inr ["a.sh"; "b.py"]) (fun _ => None) None)
            (OsState ∅ [])))
    !! index_path
  = fs (snd (main (Environment (fun _ => inr ["a.sh"; "b.py"]) (fun _ => None) None)
              (OsState {[ "./scripts/index.html" := "old" ]} ["earlier line"])))
      !! index_path.
Proof.
  apply (deterministic_output
    (Environment (fun _ => inr ["a.sh"; "b.py"]) (fun _ => None) None)
    (Environment (fun _ => inr ["a.sh"; "b.py"]) (fun _ => None) None)
    (OsState ∅ []) (OsState {[ "./scripts/index.html" := "old" ]} ["earlier line"])
    ["a.sh"; "b.py"]); reflexivity.
Defined.

(** ** Reading rendered text *)

Lemma read_app (a b : string) (r : reader) : read (a +:+ b) r = read b (read a r).
Proof.
  revert r. induction a as [|c a IH]; intros r; [done|].
  rewrite str_app_cons. simpl. apply IH.
Qed.

Lemma elements_from_app (a b : string) (r : reader) :
  elements_from (a +:+ b) r = elements_from a r ++ elements_from b (read a r).
Proof.
  revert r. induction a as [|c a IH]; intros r; [done|].
  rewrite str_app_cons. simpl. by rewrite IH, app_assoc.
Qed.

Lemma markup_free_cons (c : ascii) (s : string) :
  markup_free (String c s) = true ->
  Ascii.eqb c "<" = false /\ Ascii.eqb c "034" = false /\ markup_free s = true.
Proof.
  simpl. rewrite !andb_true_iff, !negb_true_iff. tauto.
Qed.

(** A name without markup is character data where character data stands... *)
Lemma read_text_free (f : string) (stack : list string) :
  markup_free f = true -> read f (Reader Text stack) = Reader Text stack.
Proof.
  induction f as [|c f IH]; [done|].
  intros (Hlt & _ & Hf)%markup_free_cons. simpl. unfold step. simpl.
  rewrite Hlt. by apply IH.
Qed.

Lemma elements_text_free (f : string) (stack : list string) :
  markup_free f = true -> elements_from f (Reader Text stack) = [].
Proof.
  induction f as [|c f IH]; [done|].
  intros (Hlt & _ & Hf)%markup_free_cons. simpl. unfold step. simpl.
  rewrite Hlt. by apply IH.
Qed.

(** ... and stays inside an attribute value where one is open. *)
Lemma read_quoted_free (f name : string) (stack : list string) :
  markup_free f = true ->
  read f (Reader (Quoted name) stack) = Reader (Quoted name) stack.
Proof.
  induction f as [|c f IH]; [done|].
  intros (_ & Hdq & Hf)%markup_free_cons. simpl. unfold step. simpl.
  rewrite Hdq. by apply IH.
Qed.

Lemma elements_quoted_free (f name : string) (stack : list string) :
  markup_free f = true -> elements_from f (Reader (Quoted name) stack) = [].
Proof.
  induction f as [|c f IH]; [done|].
  intros (_ & Hdq & Hf)%markup_free_cons. simpl. unfold step. simpl.
  rewrite Hdq. by apply IH.
Qed.

(** Evaluate the reader on the literal pieces of a template, innermost first,
    and pass over the file names with the four lemmas above. *)
Ltac closed_string c :=
  let _ := constr:(ltac:(repeat match goal with H : _ |- _ => clear H end;
                         exact c) : string) in idtac.

Ltac read_literal :=
  match goal with
  | |- context [read ?c (Reader ?m ?st)] =>
      closed_string c;
      let v := eval vm_compute in (read c (Reader m st)) in
      change (read c (Reader m st)) with v
  | |- context [elements_from ?c (Reader ?m ?st)] =>
      closed_string c;
      let v := eval vm_compute in (elements_from c (Reader m st)) in
      change (elements_from c (Reader m st)) with v
  end.

Ltac read_template :=
  repeat first
    [ rewrite read_app
    | rewrite elements_from_app
    | rewrite read_text_free by assumption
    | rewrite read_quoted_free by assumption
    | rewrite elements_text_free by assumption
    | rewrite elements_quoted_free by assumption
    | progress read_literal ].

Lemma read_render_item (file : string) :
  markup_free file = true ->
  read (render_item file) (Reader Text list_context) = Reader Text list_context
  /\ elements_from (render_item file) (Reader Text list_context) = item_elements.
Proof.
  intros Hfree. unfold render_item, list_context.
  destruct (endswith_any file [".sh"; ".bash"]);
    [|destruct (endswith_any file [".py"; ".pyw"]);
      [|destruct (endswith file ".ps1")]].
  - unfold li_bash. split; read_template; reflexivity.
  - unfold li_python3. split; read_template; reflexivity.
  - unfold li_invoke_expression. split; read_template; reflexivity.
  - unfold li_unsupported. split; read_template; reflexivity.
Qed.

Lemma concat_cons2 (sep x y : string) (l : list string) :
  String.concat sep (x :: y :: l) = x +:+ sep +:+ String.concat sep (y :: l).
Proof. reflexivity. Qed.

Lemma read_column_items (column : list string) :
  Forall (fun f => markup_free f = true) column ->
  read (column_items column) (Reader Text list_context) = Reader Text list_context
  /\ elements_from (column_items column) (Reader Text list_context)
     = items_elements column.
Proof.
  unfold column_items, items_elements.
  induction 1 as [|f column Hf Hall [IHr IHe]]; [done|].
  destruct (read_render_item f Hf) as [Hr He].
  destruct column as [|g column].
  - change (String.concat nl (map render_item [f])) with (render_item f).
    split; [done|]. rewrite He. cbn [map concat]. by rewrite app_nil_r.
  - change (map render_item (f :: g :: column))
      with (render_item f :: render_item g :: map render_item column).
    rewrite concat_cons2.
    change (render_item g :: map render_item column)
      with (map render_item (g :: column)).
    split.
    + rewrite !read_app, Hr. by rewrite <- IHr at 2.
    + rewrite !elements_from_app, Hr, He.
      change (read nl (Reader Text list_context)) with (Reader Text list_context).
      rewrite IHe. reflexivity.
Qed.

Lemma read_column (column : list string) :
  Forall (fun f => markup_free f = true) column ->
  read (column_div (render_column column)) (Reader Text body_context)
  = Reader Text body_context
  /\ elements_from (column_div (render_column column)) (Reader Text body_context)
     = column_elements column.
Proof.
  intros Hall. destruct (read_column_items column Hall) as [Hr He].
  unfold column_div, render_column, column_elements, body_context, column_context.
  unfold list_context in Hr, He.
  split.
  - rewrite !read_app. repeat read_literal. rewrite Hr. by repeat read_literal.
  - rewrite !elements_from_app, !read_app.
    repeat read_literal. rewrite He, Hr. repeat read_literal.
    cbn [app]. by rewrite !app_nil_r.
Qed.

Lemma column_files_free (files : list string) (i : nat) :
  Forall (fun f => markup_free f = true) files ->
  Forall (fun f => markup_free f = true) (column_files files i).
Proof. intros Hall. unfold column_files, slice. by apply Forall_take, Forall_drop. Qed.

Lemma generate_list_items_unfold (files : list string) :
  generate_list_items files
  = column_div (render_column (column_files files 0)) +:+ nl +:+
    column_div (render_column (column_files files 1)) +:+ nl +:+
    column_div (render_column (column_files files 2)).
Proof. reflexivity. Qed.

Lemma read_list_items (files : list string) :
  Forall (fun f => markup_free f = true) files ->
  read (generate_list_items files) (Reader Text body_context)
  = Reader Text body_context
  /\ elements_from (generate_list_items files) (Reader Text body_context)
     = concat (map column_elements (column_slices files)).
Proof.
  intros Hall. rewrite generate_list_items_unfold.
  destruct (read_column _ (column_files_free files 0 Hall)) as [Hr0 He0].
  destruct (read_column _ (column_files_free files 1 Hall)) as [Hr1 He1].
  destruct (read_column _ (column_files_free files 2 Hall)) as [Hr2 He2].
  assert (read nl (Reader Text body_context) = Reader Text body_context) as Hnl
    by reflexivity.
  assert (elements_from nl (Reader Text body_context) = []) as Henl by reflexivity.
  split.
  - by rewrite !read_app, Hr0, Hnl, Hr1, Hnl, Hr2.
  - rewrite !elements_from_app, Hr0, Hnl, Hr1, Hnl, He0, He1, He2, Henl.
    unfold column_slices. cbn [seq num_columns map concat app].
    by rewrite app_nil_r.
Qed.

Lemma read_page_head : read page_head start = Reader Text body_context.
Proof. vm_compute. reflexivity. Qed.

Lemma read_page_tail : read page_tail (Reader Text body_context) = Reader Text [].
Proof. vm_compute. reflexivity. Qed.

Lemma read_html_content (files : list string) :
  Forall (fun f => markup_free f = true) files ->
  read (html_content files) start = Reader Text []
  /\ elements (html_content files)
     = head_elements ++ concat (map column_elements (column_slices files))
       ++ tail_elements.
Proof.
  intros Hall. destruct (read_list_items files Hall) as [Hr He].
  unfold html_content, elements. split.
  - by rewrite !read_app, read_page_head, Hr, read_page_tail.
  - by rewrite !elements_from_app, read_page_head, Hr, He.
Qed.

Lemma named_app (names : list string) (es1 es2 : list element) :
  named names (es1 ++ es2) = named names es1 ++ named names es2.
Proof. apply List.filter_app. Qed.

(** What the filters of the invariant keep of the fixed parts of the page... *)
Lemma named_fixed_parts :
  named ["ul"; "li"] head_elements = [] /\ named ["ul"; "li"] tail_elements = []
  /\ named ["li"] head_elements = [] /\ named ["li"] tail_elements = []
  /\ List.filter shallow head_elements
     = [("html", []); ("head", ["html"]); ("body", ["html"])]
  /\ List.filter shallow tail_elements = [].
Proof. repeat split; vm_compute; reflexivity. Qed.

(** ... and of a column. *)
Lemma named_items (column : list string) :
  named ["ul"; "li"] (items_elements column)
  = repeat ("li", list_context) (length column)
  /\ named ["li"] (items_elements column)
     = repeat ("li", list_context) (length column)
  /\ List.filter shallow (items_elements column) = [].
Proof.
  unfold items_elements. induction column as [|f column (IH1 & IH2 & IH3)]; [done|].
  cbn [map concat length repeat].
  rewrite !named_app, List.filter_app, IH1, IH2, IH3. done.
Qed.

Lemma named_column (column : list string) :
  named ["ul"; "li"] (column_elements column) = column_outline column
  /\ named ["li"] (column_elements column)
     = repeat ("li", list_context) (length column)
  /\ List.filter shallow (column_elements column) = [].
Proof.
  destruct (named_items column) as (H1 & H2 & H3).
  unfold column_elements, column_outline.
  change (?a :: ?b :: items_elements column)
    with ([a; b] ++ items_elements column).
  rewrite !named_app, List.filter_app, H1, H2, H3. done.
Qed.

Lemma forallb_markup_free (files : list string) :
  forallb markup_free files = true ->
  Forall (fun f => markup_free f = true) files.
Proof.
  induction files as [|f files IH]; [constructor|].
  simpl. intros [Hf Hfs]%andb_true_iff. constructor; auto.
Qed.

(** C4 as the code has it. Rendered-page invariant: for every list of names
    that hold neither [<] nor a double quote, the page is a complete,
    well-formed document: it opens with the doctype, every tag is closed in
    order, the root [html] holds [head] and [body]; its lists are the three
    column [ul]s, each followed by one [li] per file of its slice, so the page
    holds one [li] per file, under exactly one column. *)
Theorem rendered_page_structure (files : list string) :
  forallb markup_free files = true -> rendered_page_invariant files.
Proof.
  intros Hall%forallb_markup_free.
  destruct (read_html_content files Hall) as [Hr He].
  destruct named_fixed_parts as (Hh1 & Ht1 & Hh2 & Ht2 & Hh3 & Ht3).
  pose proof (fun i => named_column (column_files files i)) as Hcol.
  destruct (Hcol 0) as (Ha0 & Hb0 & Hc0).
  destruct (Hcol 1) as (Ha1 & Hb1 & Hc1).
  destruct (Hcol 2) as (Ha2 & Hb2 & Hc2).
  unfold rendered_page_invariant. cbv zeta. rewrite He.
  unfold column_slices. cbn [seq num_columns map concat]. rewrite !app_nil_r.
  rewrite !named_app, !List.filter_app.
  rewrite Hh1, Ht1, Hh2, Ht2, Hh3, Ht3, Ha0, Ha1, Ha2, Hb0, Hb1, Hb2, Hc0, Hc1, Hc2.
  rewrite !app_nil_r. cbn [app].
  split; [reflexivity|]. split; [exact Hr|]. split; [reflexivity|].
  split; [reflexivity|].
  rewrite !length_app, !repeat_length.
  transitivity (length (concat (column_slices files)));
    [|by rewrite concat_column_slices].
  unfold column_slices. cbn [seq num_columns map concat].
  rewrite !length_app. cbn [length]. lia.
Qed.

Lemma rendered_page_structure_witness :
  rendered_page_invariant ["a.sh"; "b.py"; "c.ps1"; "d.bash"].
Proof. apply rendered_page_structure. reflexivity. Defined.

(** C4 as stated fails: a name is copied into the page as it is, so the file
    [<li>.sh] opens an element of its own inside its link and the end tag of
    the link no longer matches. *)
Lemma rendered_page_invariant_fails : ~ rendered_page_invariant ["<li>.sh"].
Proof.
  intros (_ & Hwf & _). unfold well_formed in Hwf.
  vm_compute in Hwf. discriminate Hwf.
Qed.

(** C7. Empty input: for the empty file list the page holds exactly three
    [ul] lists, each empty, and no [li] element. *)
Theorem empty_directory_page :
  generate_list_items []
  = column_div "<ul></ul>" +:+ nl +:+ column_div "<ul></ul>" +:+ nl +:+
    column_div "<ul></ul>" /\
  count_occurrences "<ul></ul>" (html_content []) = 3 /\
  count_occurrences "<ul>" (html_content []) = 3 /\
  count_occurrences "<li>" (html_content []) = 0 /\
  named ["ul"; "li"] (elements (html_content []))
  = repeat ("ul", ["div"; "body"; "html"]) 3 /\
  well_formed (html_content []).
Proof. repeat split; vm_compute; reflexivity. Qed.

(** ** Further properties of the partition *)

Lemma column_sizes (files : list string) :
  let c := num_per_column files in
  let F := length files in
  length (column_files files 0) = Nat.min c F
  /\ length (column_files files 1) = Nat.min (2 * c) F - c
  /\ length (column_files files 2) = F - 2 * c.
Proof.
  intros c F. pose proof (num_per_column_bounds files) as Hb.
  rewrite !column_files_length. unfold end_index, start_index.
  fold c. fold F. fold c in Hb. fold F in Hb. lia.
Qed.

(** X1. Balance of the columns: the sizes never grow from left to right, the
    first and the last column differ by two files at most, and the third
    column stays empty exactly when there are 0, 1, 2 or 4 files. *)
Theorem columns_balanced (files : list string) :
  let n0 := length (column_files files 0) in
  let n1 := length (column_files files 1) in
  let n2 := length (column_files files 2) in
  n2 <= n1 <= n0
  /\ n0 - n2 <= 2
  /\ (n2 = 0 <-> In (length files) [0; 1; 2; 4]).
Proof.
  intros n0 n1 n2. destruct (column_sizes files) as (H0 & H1 & H2).
  pose proof (num_per_column_bounds files) as Hb.
  fold n0 in H0. fold n1 in H1. fold n2 in H2.
  set (c := num_per_column files) in *. set (F := length files) in *.
  split; [lia|]. split; [lia|]. simpl. lia.
Qed.

Lemma column_files_beyond (files : list string) (i : nat) :
  3 <= i -> column_files files i = [].
Proof.
  intros Hi. apply length_zero_iff_nil. rewrite column_files_length.
  pose proof (num_per_column_bounds files). unfold end_index, start_index. nia.
Qed.

(** X2. One column per file name: when the listing names every entry once,
    as a directory does, the scanned list names every file once, and each of
    its files stands in exactly one column, once. *)
Theorem file_in_one_column (entries : list string) (file : string) :
  NoDup entries -> In file (scan entries) ->
  NoDup (scan entries)
  /\ exists i, i < 3
       /\ In file (column_files (scan entries) i)
       /\ NoDup (column_files (scan entries) i)
       /\ forall i', In file (column_files (scan entries) i') -> i' = i.
Proof.
  intros Hnd Hin.
  assert (NoDup (scan entries)) as Hscan.
  { apply NoDup_ListNoDup, List.NoDup_filter, NoDup_ListNoDup, Hnd. }
  split; [done|].
  set (files := scan entries) in *.
  pose proof (concat_column_slices files) as Hcat.
  unfold column_slices in Hcat. cbn [seq num_columns map concat] in Hcat.
  rewrite app_nil_r in Hcat.
  rewrite <- Hcat in Hscan, Hin.
  apply NoDup_app in Hscan as (Hn0 & H01 & Hscan).
  apply NoDup_app in Hscan as (Hn1 & H12 & Hn2).
  assert (forall i', In file (column_files files i') ->
            i' = 0 \/ i' = 1 \/ i' = 2) as Hthree.
  { intros i' Hi'. destruct (decide (3 <= i')) as [Hge | Hlt]; [|lia].
    rewrite (column_files_beyond files i' Hge) in Hi'. destruct Hi'. }
  setoid_rewrite <- list_elem_of_In in Hthree.
  setoid_rewrite <- list_elem_of_In.
  rewrite <- list_elem_of_In, !elem_of_app in Hin.
  destruct Hin as [Hin | [Hin | Hin]].
  - exists 0. repeat split; [lia | done | done |].
    intros i' Hi'. destruct (Hthree i' Hi') as [-> | [-> | ->]]; [done| |];
      exfalso; apply (H01 file Hin); set_solver.
  - exists 1. repeat split; [lia | done | done |].
    intros i' Hi'. destruct (Hthree i' Hi') as [-> | [-> | ->]]; [|done|].
    + exfalso. apply (H01 file Hi'). set_solver.
    + exfalso. by apply (H12 file Hin).
  - exists 2. repeat split; [lia | done | done |].
    intros i' Hi'. destruct (Hthree i' Hi') as [-> | [-> | ->]]; [| |done].
    + exfalso. apply (H01 file Hi'). set_solver.
    + exfalso. by apply (H12 file Hi').
Qed.

Lemma file_in_one_column_witness :
  exists i, i < 3
    /\ In "b.py" (column_files (scan ["a.sh"; "b.py"; "d.txt"; "c.ps1"]) i)
    /\ NoDup (column_files (scan ["a.sh"; "b.py"; "d.txt"; "c.ps1"]) i)
    /\ forall i', In "b.py" (column_files (scan ["a.sh"; "b.py"; "d.txt"; "c.ps1"]) i')
                  -> i' = i.
Proof.
  apply (file_in_one_column ["a.sh"; "b.py"; "d.txt"; "c.ps1"] "b.py").
  - apply (bool_decide_unpack _). vm_compute. exact I.
  - vm_compute. tauto.
Defined.

(** ** The clipboard script against the generator *)











(** ** Further properties of the run *)

(** The four ways a run can go. *)
Lemma main_cases (env : environment) (st : os_state) :
  (exists e, listdir_result env scripts_dir = inl e
     /\ main env st
        = (inr tt, OsState (fs st) (stdout st ++ ["Error: " +:+ exc_str e])))
  \/ (exists entries e, listdir_result env scripts_dir = inr entries
        /\ open_result env index_path = Some e
        /\ main env st
           = (inr tt, OsState (fs st) (stdout st ++ ["Error: " +:+ exc_str e])))
  \/ (exists entries e k, listdir_result env scripts_dir = inr entries
        /\ open_result env index_path = None
        /\ write_result env = Some (e, k)
        /\ main env st
           = (inr tt,
              OsState
                (<[index_path := String.substring 0 k (html_content (scan entries))]>
                   (fs st))
                (stdout st ++ ["Error: " +:+ exc_str e])))
  \/ (exists entries, listdir_result env scripts_dir = inr entries
        /\ open_result env index_path = None
        /\ write_result env = None
        /\ main env st
           = (inr tt,
              OsState (<[index_path := html_content (scan entries)]> (fs st))
                (stdout st ++ [success_message]))).
Proof.
  destruct (listdir_result env scripts_dir) as [e | entries] eqn:Hl.
  - left. exists e. split; [done|]. by apply main_listdir_fails.
  - destruct (open_result env index_path) as [e |] eqn:Ho.
    + right; left. exists entries, e. repeat split.
      by apply (main_open_fails env st entries).
    + destruct (write_result env) as [[e k] |] eqn:Hw.
      * right; right; left. exists entries, e, k. repeat split.
        by apply (main_write_fails env st entries).
      * right; right; right. exists entries. repeat split.
        by apply (main_succeeds env st entries).
Qed.

(** X5. What a run never touches: whatever the surroundings answer, a run
    changes no path of the file store other than [./scripts/index.html]; when
    the listing or the opening fails the whole store is as before; when the
    writing fails after the opening succeeded, the page that was there is
    gone and [index.html] holds only the part of the new document that was
    written. *)
Theorem run_touches_index_only (env : environment) (st : os_state) :
  (forall path, path <> index_path ->
     fs (snd (main env st)) !! path = fs st !! path) /\
  (forall e, listdir_result env scripts_dir = inl e
             \/ open_result env index_path = Some e ->
     fs (snd (main env st)) = fs st) /\
  (forall entries e k,
     listdir_result env scripts_dir = inr entries ->
     open_result env index_path = None ->
     write_result env = Some (e, k) ->
     fs (snd (main env st)) !! index_path
     = Some (String.substring 0 k (html_content (scan entries)))).
Proof.
  split; [|split].
  - intros path Hne.
    destruct (main_cases env st)
      as [(e & _ & ->) | [(entries & e & _ & _ & ->)
         | [(entries & e & k & _ & _ & _ & ->) | (entries & _ & _ & _ & ->)]]];
      simpl; by rewrite ?lookup_insert_ne.
  - intros e Hfail.
    destruct (main_cases env st)
      as [(e' & _ & ->) | [(entries & e' & _ & _ & ->)
         | [(entries & e' & k & Hl & Ho & _ & _) | (entries & Hl & Ho & _ & _)]]];
      [done | done | |]; destruct Hfail; congruence.
  - intros entries e k Hl Ho Hw.
    rewrite (main_write_fails env st entries e k Hl Ho Hw). simpl.
    apply lookup_insert_eq.
Qed.

Lemma run_touches_index_only_witness :
  fs (snd (main (Environment (fun _ => inr ["a.sh"])
                   (fun _ => Some (mkException "[Errno 13] Permission denied")) None)
            (OsState {[ "./scripts/index.html" := "old page" ]} [])))
  = {[ "./scripts/index.html" := "old page" ]}.
Proof.
  exact (proj1 (proj2 (run_touches_index_only
    (Environment (fun _ => inr ["a.sh"])
       (fun _ => Some (mkException "[Errno 13] Permission denied")) None)
    (OsState {[ "./scripts/index.html" := "old page" ]} [])))
    (mkException "[Errno 13] Permission denied") (or_intror eq_refl)).
Defined.

(** X6. The status line can be trusted: every run prints exactly one line;
    that line is the success message exactly when the listing, the opening
    and the writing all went through, and then [index.html] holds the whole
    document of the listed names; otherwise the line starts with [Error: ]. *)
Theorem status_line_sound (env : environment) (st : os_state) :
  exists line,
    stdout (snd (main env st)) = stdout st ++ [line]
    /\ (line = success_message
        <-> exists entries,
              listdir_result env scripts_dir = inr entries
              /\ open_result env index_path = None
              /\ write_result env = None)
    /\ (line = success_message ->
        exists entries,
          listdir_result env scripts_dir = inr entries
          /\ fs (snd (main env st)) !! index_path
             = Some (html_content (scan entries)))
    /\ (line <> success_message -> exists e, line = "Error: " +:+ exc_str e).
Proof.
  assert (forall e : Exception, exists line,
            stdout st ++ ["Error: " +:+ exc_str e] = stdout st ++ [line]
            /\ line <> success_message
            /\ exists e', line = "Error: " +:+ exc_str e') as Herr.
  { intros e. exists ("Error: " +:+ exc_str e).
    split; [done|]. split; [apply error_line_not_success | eauto]. }
  destruct (main_cases env st)
    as [(e & Hl & ->) | [(entries & e & Hl & Ho & ->)
       | [(entries & e & k & Hl & Ho & Hw & ->) | (entries & Hl & Ho & Hw & ->)]]];
    simpl.
  - destruct (Herr e) as (line & Hout & Hne & Hline). exists line.
    split; [done|]. split; [split|split]; [done | | done | done].
    intros (entries & Hl' & _). congruence.
  - destruct (Herr e) as (line & Hout & Hne & Hline). exists line.
    split; [done|]. split; [split|split]; [done | | done | done].
    intros (entries' & _ & Ho' & _). congruence.
  - destruct (Herr e) as (line & Hout & Hne & Hline). exists line.
    split; [done|]. split; [split|split]; [done | | done | done].
    intros (entries' & _ & _ & Hw'). congruence.
  - exists success_message. split; [done|].
    split; [split|split]; [eauto | done | | done].
    intros _. exists entries. split; [done | apply lookup_insert_eq].
Qed.

(** X7. Running the script again: after a run that went through, a second
    run that goes through too, over the same listing now joined by the
    [index.html] of the first run (at whatever place the directory lists it),
    leaves the file store exactly as the first run left it and prints the
    success message a second time. *)
Theorem second_run_changes_nothing (env1 env2 : environment) (st : os_state)
    (before after : list string) :
  listdir_result env1 scripts_dir = inr (before ++ after) ->
  listdir_result env2 scripts_dir = inr (before ++ "index.html" :: after) ->
  open_result env1 index_path = None -> write_result env1 = None ->
  open_result env2 index_path = None -> write_result env2 = None ->
  fs (snd (main env2 (snd (main env1 st)))) = fs (snd (main env1 st))
  /\ stdout (snd (main env2 (snd (main env1 st))))
     = stdout st ++ [success_message; success_message].
Proof.
  intros Hl1 Hl2 Ho1 Hw1 Ho2 Hw2.
  rewrite (main_succeeds env1 st _ Hl1 Ho1 Hw1).
  rewrite (main_succeeds env2 _ _ Hl2 Ho2 Hw2). simpl.
  rewrite (scan_skip before after "index.html") by reflexivity.
  split; [apply insert_insert_eq | by rewrite <- app_assoc].
Qed.

Lemma second_run_changes_nothing_witness :
  fs (snd (main (Environment (fun _ => inr ["a.sh"; "index.html"; "b.py"])
                   (fun _ => None) None)
            (snd (main (Environment (fun _ => inr ["a.sh"; "b.py"]) (fun _ => None) None)
                    (OsState ∅ [])))))
  = fs (snd (main (Environment (fun _ => inr ["a.sh"; "b.py"]) (fun _ => None) None)
              (OsState ∅ []))).
Proof.
  apply (second_run_changes_nothing
    (Environment (fun _ => inr ["a.sh"; "b.py"]) (fun _ => None) None)
    (Environment (fun _ => inr ["a.sh"; "index.html"; "b.py"]) (fun _ => None) None)
    (OsState ∅ []) ["a.sh"] ["b.py"]); reflexivity.
Defined.

(** ** Every file is linked *)

Lemma str_app_empty_r (s : string) : s +:+ EmptyString = s.
Proof. induction s as [|a s IH]; [done|]. by rewrite str_app_cons, IH. Qed.

Lemma contains_refl (t : string) : contains t t.
Proof. exists EmptyString, EmptyString. by rewrite str_app_empty_r. Qed.

Lemma contains_trans (a b c : string) : contains a b -> contains b c -> contains a c.
Proof.
  intros (p & q & ->) (p' & q' & ->). exists (p +:+ p'), (q' +:+ q).
  by rewrite !str_app_assoc.
Qed.

Lemma contains_app_l (a b t : string) : contains a t -> contains (a +:+ b) t.
Proof.
  intros (p & q & ->). exists p, (q +:+ b). by rewrite !str_app_assoc.
Qed.

Lemma contains_app_r (a b t : string) : contains b t -> contains (a +:+ b) t.
Proof.
  intros (p & q & ->). exists (a +:+ p), q. by rewrite !str_app_assoc.
Qed.

(** A joined list holds each of its members. *)
Lemma concat_contains (sep x : string) (l : list string) :
  In x l -> contains (String.concat sep l) x.
Proof.
  induction l as [|y l IH]; [intros []|].
  intros Hin. destruct l as [|z l].
  - destruct Hin as [-> | []]. apply contains_refl.
  - rewrite concat_cons2. destruct Hin as [-> | Hin].
    + apply contains_app_l, contains_refl.
    + by apply contains_app_r, contains_app_r, IH.
Qed.

Lemma render_item_link (file : string) : contains (render_item file) (file_link file).
Proof.
  set (after := nl +:+ "            </li>" +:+ nl +:+ "            ").
  unfold render_item.
  destruct (endswith_any file [".sh"; ".bash"]);
    [|destruct (endswith_any file [".py"; ".pyw"]);
      [|destruct (endswith file ".ps1")]].
  - exists (nl +:+ "            <li>" +:+ nl +:+ "                <button onclick="
            +:+ dq +:+ "copyCommand('" +:+ file +:+ "')" +:+ dq +:+ " title=" +:+ dq
            +:+ "Click to copy command: " +:+ curl_linux +:+ " '" +:+ base_url
            +:+ file +:+ "' | bash" +:+ dq +:+ ">Copy</button>" +:+ nl
            +:+ "                "), after.
    unfold li_bash, file_link, after. by rewrite !str_app_assoc.
  - exists (nl +:+ "            <li>" +:+ nl +:+ "                <button onclick="
            +:+ dq +:+ "copyCommand('" +:+ file +:+ "')" +:+ dq +:+ " title=" +:+ dq
            +:+ "Click to copy command: " +:+ curl_linux +:+ " '" +:+ base_url
            +:+ file +:+ "' | python3" +:+ dq +:+ ">Copy</button>" +:+ nl
            +:+ "                "), after.
    unfold li_python3, file_link, after. by rewrite !str_app_assoc.
  - exists (nl +:+ "            <li>" +:+ nl +:+ "                <button onclick="
            +:+ dq +:+ "copyCommand('" +:+ file +:+ "')" +:+ dq +:+ " title=" +:+ dq
            +:+ "Click to copy command: " +:+ curl_win +:+ " '" +:+ base_url
            +:+ file +:+ "' | Invoke-Expression" +:+ dq +:+ ">Copy</button>" +:+ nl
            +:+ "                "), after.
    unfold li_invoke_expression, file_link, after. by rewrite !str_app_assoc.
  - exists (nl +:+ "            <li>" +:+ nl +:+ "                <button onclick="
            +:+ dq +:+ "alert('Unsupported file type!')" +:+ dq +:+ " title=" +:+ dq
            +:+ "Unsupported file type" +:+ dq +:+ ">Copy</button>" +:+ nl
            +:+ "                "), after.
    unfold li_unsupported, file_link, after. by rewrite !str_app_assoc.
Qed.

(** X8. Nothing is dropped from the page: for every file of the list handed
    to the rendering, whatever its name, the page holds the item of that
    file, and with it the link that points to the file and shows its name. *)
Theorem every_file_linked (files : list string) (file : string) :
  In file files ->
  contains (html_content files) (render_item file)
  /\ contains (html_content files) (file_link file).
Proof.
  intros Hin.
  assert (contains (html_content files) (render_item file)) as Hitem.
  { rewrite <- (concat_column_slices files) in Hin.
    apply in_concat in Hin as (column & Hcol & Hfile).
    unfold html_content. apply contains_app_r, contains_app_l.
    unfold generate_list_items.
    apply (contains_trans _ (column_div (render_column column))).
    - apply concat_contains, in_map, in_map, Hcol.
    - unfold column_div, render_column.
      do 5 apply contains_app_r. apply contains_app_l.
      apply contains_app_r, contains_app_l.
      apply concat_contains, in_map, Hfile. }
  split; [done|]. apply (contains_trans _ _ _ Hitem), render_item_link.
Qed.

Lemma every_file_linked_witness :
  contains (html_content ["a.sh"; "b.py"]) (file_link "b.py").
Proof. apply (every_file_linked ["a.sh"; "b.py"] "b.py"). simpl. tauto. Defined.

Lemma columns_balanced_witness : length (column_files ["a"; "b"; "c"; "d"] 2) = 0.
Proof.
  apply (proj2 (proj2 (proj2 (columns_balanced ["a"; "b"; "c"; "d"])))).
  simpl. tauto.
Defined.

Lemma status_line_sound_witness :
  exists line,
    stdout (snd (main (Environment (fun _ => inr ["a.sh"]) (fun _ => None) None)
                   (OsState ∅ ["earlier"])))
    = ["earlier"] ++ [line].
Proof.
  destruct (status_line_sound
    (Environment (fun _ => inr ["a.sh"]) (fun _ => None) None)
    (OsState ∅ ["earlier"])) as (line & Hout & _).
  exists line. exact Hout.
Defined.
